(** * A shallow embedding of the demo-request backend ([main.py])

    The handlers of [main.py] are embedded as computations in a small
    state-and-exception monad.  Python dictionaries are finite maps from keys
    to Python values, the adapter handle [db] and the helpers imported from
    the [database] module are parameters of the model (that module is not part
    of the sources), and every call a handler makes to the storage adapter is
    recorded in a trace, so that "no call was made" is a statement about the
    final state. *)

From Stdlib Require Import Ascii.
From stdpp Require Import base option list strings gmap pretty.

#[local] Set Warnings "-register-all".
#[local] Open Scope Z_scope.

(** ** Python values *)

(** The values that occur in the handlers' dictionaries.  A [string] holds a
    Python [str] in its UTF-8 encoding, one to four elements per character;
    [str_len] and [str_prefix] below count characters, as [len] and slicing
    do. *)
Inductive pyval : Type :=
| VNone
| VBool (b : bool)
| VInt (n : Z)
| VStr (s : string)
| VList (xs : list pyval)
| VDict (d : gmap string pyval).

Abbreviation pydict := (gmap string pyval).

(** Truth value testing of the built-in values ([bool(x)], [if x], [and],
    [or], the conditional expression). *)
Definition truthy (v : pyval) : bool :=
  match v with
  | VNone => false
  | VBool b => b
  | VInt n => negb (n =? 0)
  | VStr s => negb (String.eqb s "")
  | VList xs => match xs with [] => false | _ => true end
  | VDict d => negb (bool_decide (d = ∅))
  end.

(** [a and b] and [a or b] return one of their operands. *)
Definition py_and (a b : pyval) : pyval := if truthy a then b else a.
Definition py_or (a b : pyval) : pyval := if truthy a then a else b.

(** An [Optional[str]] field as a Python value. *)
Definition of_optional (o : option string) : pyval :=
  match o with
  | Some s => VStr s
  | None => VNone
  end.

(** The bytes 10xxxxxx continue the encoding of a character; every other
    byte starts one. *)
Definition is_continuation (c : ascii) : bool :=
  match c with
  | Ascii _ _ _ _ _ _ b6 b7 => b7 && negb b6
  end.

(** [len(s)]: the number of characters. *)
Fixpoint str_len (s : string) : nat :=
  match s with
  | EmptyString => O
  | String c s' => if is_continuation c then str_len s' else S (str_len s')
  end.

(** [s[:n]] on a string: its first [n] characters, or all of it when it has
    fewer. *)
Fixpoint str_prefix (n : nat) (s : string) : string :=
  match s with
  | EmptyString => EmptyString
  | String c s' =>
      if is_continuation c then String c (str_prefix n s')
      else match n with
           | O => EmptyString
           | S n' => String c (str_prefix n' s')
           end
  end.

(** [sub in s] on strings. *)
Fixpoint is_substring (sub s : string) : bool :=
  String.prefix sub s ||
  match s with
  | EmptyString => false
  | String _ s' => is_substring sub s'
  end.

(** ** Exceptions and the handler monad *)

(** A raised exception.  [Exception msg] is any instance of [Exception] whose
    [str] is [msg]; [HTTPException] is FastAPI's, with its two attributes. *)
Inductive exn : Type :=
| Exception (msg : string)
| HTTPException (status_code : Z) (detail : string).

(** [str(e)]; for an [HTTPException] it is the status code followed by the
    detail. *)
Definition str_exn (e : exn) : string :=
  match e with
  | Exception msg => msg
  | HTTPException status_code detail => pretty status_code +:+ ": " +:+ detail
  end.

(** The outcome of running a piece of Python: a value or a raised exception. *)
Inductive result (A : Type) : Type :=
| Ok (a : A)
| Raise (e : exn).
Arguments Ok {A} a.
Arguments Raise {A} e.

(** Computations over a state [S]; the state reached when an exception is
    raised is kept, as the mutations done before a [raise] are in Python. *)
Definition M (S A : Type) : Type := S → result A * S.

Definition ret {S A} (a : A) : M S A := λ s, (Ok a, s).

Definition bind {S A B} (c : M S A) (k : A → M S B) : M S B :=
  λ s, match c s with
       | (Ok a, s') => k a s'
       | (Raise e, s') => (Raise e, s')
       end.

Definition raise {S A} (e : exn) : M S A := λ s, (Raise e, s).

(** [try: body except Exception as e: handler e]. *)
Definition try_except {S A} (body : M S A) (handler : exn → M S A) : M S A :=
  λ s, match body s with
       | (Ok a, s') => (Ok a, s')
       | (Raise e, s') => handler e s'
       end.

(** An operation without effect on the state that may raise. *)
Definition lift_result {S A} (r : result A) : M S A := λ s, (r, s).

Notation "'let*' x := c 'in' k" := (bind c (λ x, k))
  (at level 10, x name, c at level 100, k at level 200).
Notation "c ;;; k" := (bind c (λ _, k))
  (at level 100, k at level 200, right associativity).

(** ** The storage adapter and the process state *)

Section Backend.

(** The state of the backing document store.  The store is an external
    collaborator: the handlers only reach it through the operations below. *)
Context {St : Type}.

(** The adapter handle [db], as far as [main.py] uses it: its truth value
    ([bool(db)], [if db:]), its [name] attribute, [db[c].count_documents({})]
    and [db.list_collection_names()].  Each of them is code of the handle's
    class and may raise.  [h_name] is the outcome of [getattr(db, 'name')]:
    [Ok None] when the lookup ends in [AttributeError] (so that [hasattr]
    answers [False]), [Raise e] when it raises anything else. *)
Record handle : Type := Handle {
  h_bool : result bool;
  h_name : result (option pyval);
  h_count_documents : string → St → result Z * St;
  h_list_collection_names : St → result (list string) * St;
}.

(** What [from database import db, create_document, get_documents] binds. *)
Record database_module : Type := DatabaseModule {
  db : option handle;
  create_document : string → pydict → St → result string * St;
  get_documents : string → pydict → St → result (list pydict) * St;
}.

Definition not_available : string :=
  "Database not available. Check DATABASE_URL and DATABASE_NAME env vars.".

(** The bindings made by the [except Exception:] branch of the import. *)
Definition fallback : database_module :=
  {| db := None;
     create_document := λ _ _ s, (Raise (Exception not_available), s);
     get_documents := λ _ _ s, (Raise (Exception not_available), s) |}.

(** The module-level [try: from database import ... except Exception: ...],
    given the outcome of the import. *)
Definition import_database (imported : result database_module) : database_module :=
  match imported with
  | Ok m => m
  | Raise _ => fallback
  end.

(** A call made to the storage adapter. *)
Inductive call : Type :=
| CreateDocument (collection : string) (data : pydict)
| CountDocuments (collection : string)
| ListCollectionNames.

(** The state a handler runs in: the store and the trace of the calls made
    to the adapter so far. *)
Record world : Type := World {
  adapter : St;
  calls : list call;
}.

(** Run one adapter operation and record it. *)
Definition call_adapter {A} (c : call) (op : St → result A * St) : M world A :=
  λ w, match op (adapter w) with
       | (r, s') => (r, {| adapter := s'; calls := calls w ++ [c] |})
       end.

(** [bool(db)] for the module-level [db], which is [None] or a handle. *)
Definition bool_db (o : option handle) : result bool :=
  match o with
  | None => Ok false
  | Some h => h_bool h
  end.

(** *** Local variables that a handler mutates *)

Definition lift {L A} (c : M world A) : M (L * world) A :=
  λ '(l, w), match c w with (r, w') => (r, (l, w')) end.

Definition get_local {L} : M (L * world) L := λ '(l, w), (Ok l, (l, w)).

Definition update_local {L} (f : L → L) : M (L * world) unit :=
  λ '(l, w), (Ok tt, (f l, w)).

Definition with_local {L A} (init : L) (body : M (L * world) A) : M world A :=
  λ w, match body (init, w) with (r, (_, w')) => (r, w') end.

(** [response[k] = v] *)
Definition setitem (k : string) (v : pyval) : M (pydict * world) unit :=
  update_local (λ d : pydict, <[k := v]> d).

(** [base_metrics.append(v)] *)
Definition append (v : pyval) : M (list pyval * world) unit :=
  update_local (λ l, l ++ [v]).

(** ** Models *)

Record DemoRequestIn : Type := {
  email : string;
  name : option string;
  company : option string;
  message : option string;
}.

(** [payload.model_dump()] *)
Definition model_dump (payload : DemoRequestIn) : pydict :=
  {[ "email" := VStr (email payload);
     "name" := of_optional (name payload);
     "company" := of_optional (company payload);
     "message" := of_optional (message payload) ]}.

(** ** Core endpoints *)

Definition read_root : M world pydict :=
  ret {[ "message" := VStr "Hello from FastAPI Backend!" ]}.

Definition hello : M world pydict :=
  ret {[ "message" := VStr "Hello from the backend API!" ]}.

Definition health (m : database_module) : M world pydict :=
  let* b := lift_result (bool_db (db m)) in
  ret {[ "status" := VStr "ok";
         "database" := py_or (py_and (VBool b) (VStr "available")) (VStr "unavailable");
         "version" := VStr "1.0.0" ]}.

(** ** Demo requests *)

Definition create_demo_request (m : database_module) (payload : DemoRequestIn)
  : M world pydict :=
  try_except
    (let data := model_dump payload in
     let* new_id := call_adapter (CreateDocument "demorequest" data)
                                 (create_document m "demorequest" data) in
     ret {[ "id" := VStr new_id;
            "email" := VStr (email payload);
            "name" := of_optional (name payload);
            "company" := of_optional (company payload) ]})
    (λ e, raise (HTTPException 500 (str_exn e))).

(** ** Metrics endpoint *)

Definition metric (label : string) (value : pyval) (hint : string) : pyval :=
  VDict {[ "label" := VStr label; "value" := value; "hint" := VStr hint ]}.

Definition base_metrics : list pyval :=
  [ metric "EHR Feeds" (VInt 142) "+12 this week";
    metric "Claims/day" (VStr "1.8M") "EDI 837/835";
    metric "Avg. Latency" (VStr "320ms") "stream pipelines";
    metric "AI Models" (VInt 28) "risk & quality" ].

Definition get_metrics (m : database_module) : M world pydict :=
  with_local base_metrics
    (try_except
       (let* b := lift_result (bool_db (db m)) in
        if b then
          match db m with
          | Some h =>
              try_except
                (let* demo_count :=
                   lift (call_adapter (CountDocuments "demorequest")
                                      (h_count_documents h "demorequest")) in
                 append (metric "Demo Requests" (VInt demo_count) "total received"))
                (λ _, ret tt)
          | None => ret tt
          end
        else ret tt)
       (λ _, ret tt) ;;;
     let* metrics := get_local in
     ret {[ "metrics" := VList metrics ]}).

(** ** Database test endpoint *)

(** [os.getenv(k)] *)
Definition getenv (environ : gmap string string) (k : string) : pyval :=
  of_optional (environ !! k).

Definition test_database (m : database_module) (environ : gmap string string)
  : M world pydict :=
  with_local
    ({[ "backend" := VStr "✅ Running";
        "database" := VStr "❌ Not Available";
        "database_url" := VNone;
        "database_name" := VNone;
        "connection_status" := VStr "Not Connected";
        "collections" := VList [] ]} : pydict)
    (try_except
       (match db m with
        | Some h =>
            setitem "database" (VStr "✅ Available") ;;;
            setitem "database_url" (VStr "✅ Configured") ;;;
            let* attr := lift_result (h_name h) in
            setitem "database_name"
                    (match attr with Some v => v | None => VStr "✅ Connected" end) ;;;
            setitem "connection_status" (VStr "Connected") ;;;
            try_except
              (let* collections :=
                 lift (call_adapter ListCollectionNames (h_list_collection_names h)) in
               setitem "collections" (VList (VStr <$> take 10 collections)) ;;;
               setitem "database" (VStr "✅ Connected & Working"))
              (λ e, setitem "database"
                      (VStr ("⚠️  Connected but Error: " +:+ str_prefix 50 (str_exn e))))
        | None =>
            setitem "database" (VStr "⚠️  Available but not initialized")
        end)
       (λ e, setitem "database" (VStr ("❌ Error: " +:+ str_prefix 50 (str_exn e)))) ;;;
     setitem "database_url"
             (if truthy (getenv environ "DATABASE_URL")
              then VStr "✅ Set" else VStr "❌ Not Set") ;;;
     setitem "database_name"
             (if truthy (getenv environ "DATABASE_NAME")
              then VStr "✅ Set" else VStr "❌ Not Set") ;;;
     get_local).

End Backend.

Arguments handle : clear implicits.
Arguments database_module : clear implicits.
Arguments world : clear implicits.

(** ** The validation layer and the HTTP surface *)

Definition is_space (c : ascii) : bool :=
  bool_decide (c ∈ [" "; "009"; "010"; "011"; "012"; "013"]%char).

Fixpoint has_char (c : ascii) (s : string) : bool :=
  match s with
  | EmptyString => false
  | String c' s' => Ascii.eqb c c' || has_char c s'
  end.

(** The parts of [s] before and after its first at-sign. *)
Fixpoint split_at_sign (s : string) : option (string * string) :=
  match s with
  | EmptyString => None
  | String c s' =>
      if Ascii.eqb c "@" then Some (EmptyString, s')
      else match split_at_sign s' with
           | Some (l, d) => Some (String c l, d)
           | None => None
           end
  end.

(** Whitespace that no backslash precedes. *)
Fixpoint has_unescaped_space (s : string) : bool :=
  match s with
  | EmptyString => false
  | String c s' =>
      if Ascii.eqb c "\" then
        match s' with
        | EmptyString => false
        | String _ s'' => has_unescaped_space s''
        end
      else is_space c || has_unescaped_space s'
  end.

(** Modelled from the spec: the syntax check of the [EmailStr] field type
    (pydantic and its e-mail validator are not part of the sources).  An
    address is local-part@domain with at least one dot in the domain and no
    unescaped whitespace. *)
Definition valid_email (s : string) : bool :=
  match split_at_sign s with
  | None => false
  | Some (l, d) =>
      negb (String.eqb l "") && negb (has_char "@" d) && has_char "." d
      && negb (has_unescaped_space s)
  end.

(** The three malformations the spec names: the empty string, no at-sign, no
    dot in the domain. *)
Definition malformed_email (s : string) : bool :=
  String.eqb s "" || negb (has_char "@" s) ||
  match split_at_sign s with
  | Some (_, d) => negb (has_char "." d)
  | None => false
  end.

(** Modelled from the spec: validation of an [Optional[str]] field of a
    request body; absent and [None] are both valid. *)
Definition validate_optional (body : pydict) (k : string) : option (option string) :=
  match body !! k with
  | None | Some VNone => Some None
  | Some (VStr s) => Some (Some s)
  | Some _ => None
  end.

(** Modelled from the spec: validation of the required [email] field. *)
Definition validate_email (body : pydict) : option string :=
  match body !! "email" with
  | Some (VStr s) => if valid_email s then Some s else None
  | _ => None
  end.

(** The field [k] is reported when its validation gave nothing. *)
Definition offending {A} (k : string) (o : option A) : list string :=
  match o with
  | Some _ => []
  | None => [k]
  end.

(** Modelled from the spec: the validation layer for [DemoRequestIn] (the
    model class only declares the field types; pydantic does the checking).
    The result is the validated payload or the names of the offending
    fields. *)
Definition validate (body : pydict) : list string + DemoRequestIn :=
  match validate_email body, validate_optional body "name",
        validate_optional body "company", validate_optional body "message" with
  | Some e, Some n, Some c, Some msg =>
      inr {| email := e; name := n; company := c; message := msg |}
  | e, n, c, msg =>
      inl (offending "email" e ++ offending "name" n ++
           offending "company" c ++ offending "message" msg)
  end.

Inductive response : Type :=
| JSONResponse (status_code : Z) (content : pyval).

Section Surface.

Context {St : Type}.

(** Modelled from the spec: how the HTTP surface (FastAPI, not part of the
    sources) serves a handler: a returned body with status 200, an
    [HTTPException] with its status code and its detail; any other exception
    leaves the handler unhandled. *)
Definition serve (handler : M (world St) pydict) : M (world St) response :=
  try_except
    (let* body := handler in ret (JSONResponse 200 (VDict body)))
    (λ e, match e with
          | HTTPException status_code detail =>
              ret (JSONResponse status_code (VDict {[ "detail" := VStr detail ]}))
          | Exception _ => raise e
          end).

(** Modelled from the spec: the route [POST /api/demo-requests]; the body is
    validated before the handler is called, and a rejected body is answered
    with the validation error (422) without calling the handler. *)
Definition post_demo_requests (m : database_module St) (body : pydict)
  : M (world St) response :=
  match validate body with
  | inl fields => ret (JSONResponse 422 (VDict {[ "detail" := VList (VStr <$> fields) ]}))
  | inr payload => serve (create_demo_request m payload)
  end.

End Surface.

(** ** The shapes of the handlers' results *)

Section Shapes.

Context {St : Type}.

(** The world after the demo-request handler's single call of the create
    operation. *)
Definition after_create (w : world St) (payload : DemoRequestIn) (s' : St) : world St :=
  {| adapter := s';
     calls := calls w ++ [CreateDocument "demorequest" (model_dump payload)] |}.

(** The body the demo-request handler returns for the identifier [new_id]. *)
Definition demo_request_out (payload : DemoRequestIn) (new_id : string) : pydict :=
  {[ "id" := VStr new_id;
     "email" := VStr (email payload);
     "name" := of_optional (name payload);
     "company" := of_optional (company payload) ]}.

(** The body the health handler returns when [bool(db)] is [b]. *)
Definition health_body (b : bool) : pydict :=
  {[ "status" := VStr "ok";
     "database" := VStr (if b then "available" else "unavailable");
     "version" := VStr "1.0.0" ]}.

(** The body the metrics handler returns for a list of entries. *)
Definition metrics_body (entries : list pyval) : pydict :=
  {[ "metrics" := VList entries ]}.

(** The entry the metrics handler appends for a count. *)
Definition live_metric (demo_count : Z) : pyval :=
  metric "Demo Requests" (VInt demo_count) "total received".

(** The world after the metrics handler's call of the count operation. *)
Definition after_count (w : world St) (s' : St) : world St :=
  {| adapter := s'; calls := calls w ++ [CountDocuments "demorequest"] |}.

(** The value the diagnostics handler reports for the environment variable
    [k]. *)
Definition env_flag (environ : gmap string string) (k : string) : pyval :=
  if truthy (getenv environ k) then VStr "✅ Set" else VStr "❌ Not Set".

(** The report of the diagnostics handler with the given [database] text,
    connection status and collection names. *)
Definition report (environ : gmap string string) (database connection_status : string)
    (collections : list string) : pydict :=
  {[ "backend" := VStr "✅ Running";
     "database" := VStr database;
     "database_url" := env_flag environ "DATABASE_URL";
     "database_name" := env_flag environ "DATABASE_NAME";
     "connection_status" := VStr connection_status;
     "collections" := VList (VStr <$> collections) ]}.

(** The world after the diagnostics handler's call of the listing. *)
Definition after_listing (w : world St) (s' : St) : world St :=
  {| adapter := s'; calls := calls w ++ [ListCollectionNames] |}.

End Shapes.

(** ** Concrete adapters *)

(** A store that keeps the documents written, with their collection. *)
Abbreviation store := (list (string * pydict)).

(** A create operation with a scripted outcome: it stores the document and
    returns the identifier, or raises and stores nothing. *)
Definition scripted_create (r : result string)
  : string → pydict → store → result string * store :=
  λ c d s, match r with
           | Ok new_id => (Ok new_id, s ++ [(c, d)])
           | Raise e => (Raise e, s)
           end.

(** A create operation that stores the document and then raises, as a
    write whose acknowledgement is lost does. *)
Definition leaky_create : string → pydict → store → result string * store :=
  λ c d s, (Raise (Exception "connection lost"), s ++ [(c, d)]).

(** A handle whose four operations have scripted outcomes. *)
Definition scripted_handle (truth : result bool) (attr : result (option pyval))
    (count : result Z) (names : result (list string)) : handle store :=
  {| h_bool := truth;
     h_name := attr;
     h_count_documents := λ _ s, (count, s);
     h_list_collection_names := λ s, (names, s) |}.

Definition scripted_database (h : option (handle store)) (r : result string)
  : database_module store :=
  {| db := h;
     create_document := scripted_create r;
     get_documents := λ _ _ s, (Ok [], s) |}.

Definition leaky_database : database_module store :=
  {| db := None;
     create_document := leaky_create;
     get_documents := λ _ _ s, (Ok [], s) |}.

(** A handle in the style of a driver's database object: truth value testing
    is not implemented and raises, everything else works. *)
Definition untestable_handle : handle store :=
  scripted_handle (Raise (Exception "Database objects do not implement truth value testing or bool()"))
                  (Ok (Some (VStr "demo"))) (Ok 7) (Ok ["demorequest"]).

(** A handle that is false in a boolean context (its class defines
    [__bool__] or [__len__]). *)
Definition falsy_handle : handle store :=
  scripted_handle (Ok false) (Ok (Some (VStr "demo"))) (Ok 7) (Ok ["demorequest"]).

(** A handle without surprises. *)
Definition working_handle : handle store :=
  scripted_handle (Ok true) (Ok (Some (VStr "demo"))) (Ok 7) (Ok ["demorequest"]).

(** A handle whose [name] property raises. *)
Definition nameless_handle : handle store :=
  scripted_handle (Ok true) (Raise (Exception "name lookup failed"))
                  (Ok 7) (Ok ["demorequest"]).

Definition empty_world : world store := {| adapter := []; calls := [] |}.

Definition ada : DemoRequestIn :=
  {| email := "a@b.com"; name := Some "Ada"; company := None; message := Some "hi" |}.

(** * Properties *)

(** ** Demo requests *)

Section DemoRequests.

Context {St : Type}.
Implicit Types (m : database_module St) (w : world St) (payload : DemoRequestIn).

(** The handler is determined by the outcome of its one create call. *)
Lemma create_demo_request_run m payload w :
  create_demo_request m payload w =
  match create_document m "demorequest" (model_dump payload) (adapter w) with
  | (Ok new_id, s') => (Ok (demo_request_out payload new_id), after_create w payload s')
  | (Raise e, s') => (Raise (HTTPException 500 (str_exn e)), after_create w payload s')
  end.
Proof.
  unfold create_demo_request, try_except, bind, call_adapter, ret, raise.
  destruct (create_document m _ _ _) as [[new_id|e] s']; reflexivity.
Qed.

Lemma demo_request_out_id payload new_id :
  demo_request_out payload new_id !! "id" = Some (VStr new_id).
Proof. reflexivity. Qed.

Lemma demo_request_out_dom payload new_id :
  dom (demo_request_out payload new_id) = ({[ "id"; "email"; "name"; "company" ]} : gset string).
Proof. unfold demo_request_out. rewrite !dom_insert_L, dom_singleton_L. set_solver. Qed.

(** C1: when the create call succeeds with an identifier, the handler returns
    exactly that identifier as [id] together with the payload's [email],
    [name] and [company]; [message] is stored with the document but is not a
    key of the output. *)
Theorem create_demo_request_echoes m payload w new_id s' :
  create_document m "demorequest" (model_dump payload) (adapter w) = (Ok new_id, s') →
  ∃ out,
    create_demo_request m payload w = (Ok out, after_create w payload s') ∧
    out !! "id" = Some (VStr new_id) ∧
    out !! "email" = Some (VStr (email payload)) ∧
    out !! "name" = Some (of_optional (name payload)) ∧
    out !! "company" = Some (of_optional (company payload)) ∧
    dom out = ({[ "id"; "email"; "name"; "company" ]} : gset string) ∧
    out !! "message" = None ∧
    model_dump payload !! "message" = Some (of_optional (message payload)).
Proof.
  intros Hcreate. exists (demo_request_out payload new_id).
  rewrite create_demo_request_run, Hcreate.
  split; [reflexivity|].
  split; [apply demo_request_out_id|].
  do 3 (split; [reflexivity|]).
  split; [apply demo_request_out_dom|].
  split; reflexivity.
Qed.

(** C2: when the create call raises, the handler raises an [HTTPException]
    with status code 500 whose detail is the text of the adapter's error; a
    text containing "disk full" gives a detail containing it. *)
Theorem create_demo_request_surfaces_error m payload w e s' :
  create_document m "demorequest" (model_dump payload) (adapter w) = (Raise e, s') →
  ∃ detail,
    create_demo_request m payload w
      = (Raise (HTTPException 500 detail), after_create w payload s') ∧
    detail = str_exn e ∧
    (is_substring "disk full" (str_exn e) = true → is_substring "disk full" detail = true).
Proof.
  intros Hcreate. exists (str_exn e).
  rewrite create_demo_request_run, Hcreate. auto.
Qed.

(** C9: when the import of the database module failed, [db] is [None] and the
    handler answers every payload with status 500 and the detail of the
    fallback create operation. *)
Theorem create_demo_request_without_database (cause : exn) payload w :
  db (import_database (St:=St) (Raise cause)) = None ∧
  (∀ c d s, create_document (import_database (St:=St) (Raise cause)) c d s
              = (Raise (Exception not_available), s)) ∧
  create_demo_request (import_database (Raise cause)) payload w
    = (Raise (HTTPException 500
         "Database not available. Check DATABASE_URL and DATABASE_NAME env vars."),
       after_create w payload (adapter w)).
Proof.
  split; [reflexivity|]. split; [reflexivity|].
  rewrite create_demo_request_run. reflexivity.
Qed.

(** C6, as the code has it: the handler makes exactly one create call and
    neither repeats nor undoes it.  An output is returned only when that call
    returned, and its [id] is the identifier the call returned, whatever it
    is; the handler raises exactly when the call raised, and the store is then
    as the call left it. *)
Theorem create_demo_request_follows_create m payload w :
  ∃ r s',
    create_document m "demorequest" (model_dump payload) (adapter w) = (r, s') ∧
    adapter (snd (create_demo_request m payload w)) = s' ∧
    calls (snd (create_demo_request m payload w))
      = calls w ++ [CreateDocument "demorequest" (model_dump payload)] ∧
    (∀ out, fst (create_demo_request m payload w) = Ok out →
       ∃ new_id, r = Ok new_id ∧ out !! "id" = Some (VStr new_id)) ∧
    (∀ e, fst (create_demo_request m payload w) = Raise e →
       ∃ cause, r = Raise cause ∧ e = HTTPException 500 (str_exn cause)) ∧
    (∀ new_id, r = Ok new_id →
       fst (create_demo_request m payload w) = Ok (demo_request_out payload new_id)) ∧
    (∀ cause, r = Raise cause →
       fst (create_demo_request m payload w) = Raise (HTTPException 500 (str_exn cause))).
Proof.
  rewrite create_demo_request_run.
  destruct (create_document m _ _ _) as [[new_id|cause] s'] eqn:Hcreate;
    eexists _, s'; (split; [reflexivity|]); simpl;
    (split; [reflexivity|]); (split; [reflexivity|]).
  - split; [|split; [|split]].
    + intros out [= <-]. by exists new_id.
    + intros e [=].
    + by intros ? [= <-].
    + intros ? [=].
  - split; [|split; [|split]].
    + intros out [=].
    + intros e [= <-]. by exists cause.
    + intros ? [=].
    + by intros ? [= <-].
Qed.

End DemoRequests.

(** The scenario of the spec: a working adapter that returns "abc123". *)
Lemma create_demo_request_echoes_witness :
  ∃ out,
    create_demo_request (scripted_database None (Ok "abc123")) ada empty_world
      = (Ok out, after_create empty_world ada [("demorequest", model_dump ada)]) ∧
    out !! "id" = Some (VStr "abc123") ∧
    out !! "email" = Some (VStr "a@b.com") ∧
    out !! "name" = Some (VStr "Ada") ∧
    out !! "company" = Some VNone ∧
    dom out = ({[ "id"; "email"; "name"; "company" ]} : gset string) ∧
    out !! "message" = None ∧
    model_dump ada !! "message" = Some (VStr "hi").
Proof.
  exact (create_demo_request_echoes (scripted_database None (Ok "abc123"))
           ada empty_world "abc123" [("demorequest", model_dump ada)] eq_refl).
Defined.

(** The scenario of the spec: the write is forced to raise "disk full". *)
Lemma create_demo_request_surfaces_error_witness :
  ∃ detail,
    create_demo_request (scripted_database None (Raise (Exception "disk full")))
                        ada empty_world
      = (Raise (HTTPException 500 detail), after_create empty_world ada []) ∧
    detail = "disk full" ∧
    (is_substring "disk full" "disk full" = true → is_substring "disk full" detail = true).
Proof.
  exact (create_demo_request_surfaces_error
           (scripted_database None (Raise (Exception "disk full")))
           ada empty_world (Exception "disk full") [] eq_refl).
Defined.

(** C6 as stated fails: with a create operation that stores the document and
    then raises, the handler answers with the error while the document is in
    the store; with a create operation that returns the empty string, the
    handler returns an output whose [id] is empty. *)
Lemma create_demo_request_not_atomic :
  (∃ detail w',
     create_demo_request leaky_database ada empty_world
       = (Raise (HTTPException 500 detail), w') ∧
     adapter w' = [("demorequest", model_dump ada)] ∧
     adapter w' ≠ adapter empty_world) ∧
  (∃ out w',
     create_demo_request (scripted_database None (Ok "")) ada empty_world
       = (Ok out, w') ∧
     out !! "id" = Some (VStr "")).
Proof.
  split.
  - eexists _, _. split; [reflexivity|]. split; [reflexivity|discriminate].
  - eexists _, _. split; reflexivity.
Qed.

(** ** Health *)

Section Health.

Context {St : Type}.
Implicit Types (m : database_module St) (w : world St).

(** The handler only evaluates the truth value of [db]; the world is left as
    it was, whatever the outcome. *)
Lemma health_run m w :
  health m w =
  match bool_db (db m) with
  | Ok b => (Ok (health_body b), w)
  | Raise e => (Raise e, w)
  end.
Proof.
  unfold health, bind, lift_result, ret, health_body.
  destruct (bool_db (db m)) as [[]|e]; reflexivity.
Qed.

(** Without a handle the database is reported unavailable. *)
Lemma health_without_handle m w :
  db m = None →
  health m w = (Ok (health_body false), w) ∧
  health_body false !! "status" = Some (VStr "ok") ∧
  health_body false !! "database" = Some (VStr "unavailable").
Proof. intros Hdb. rewrite health_run, Hdb. repeat split. Qed.

(** With a handle that is true in a boolean context the database is reported
    available. *)
Lemma health_with_true_handle m h w :
  db m = Some h → h_bool h = Ok true →
  health m w = (Ok (health_body true), w) ∧
  health_body true !! "status" = Some (VStr "ok") ∧
  health_body true !! "database" = Some (VStr "available").
Proof. intros Hdb Hb. rewrite health_run, Hdb. simpl. rewrite Hb. repeat split. Qed.

End Health.

(** C4: the handler evaluates [bool(db)], not [db is not None].  With a
    handle whose truth value testing raises, the handler raises; with a
    handle that is false in a boolean context, the database is reported
    "unavailable" although the handle is present. *)
Theorem health_tests_truth_value :
  db (scripted_database (Some untestable_handle) (Ok "abc123")) = Some untestable_handle ∧
  health (scripted_database (Some untestable_handle) (Ok "abc123")) empty_world
    = (Raise (Exception "Database objects do not implement truth value testing or bool()"),
       empty_world) ∧
  db (scripted_database (Some falsy_handle) (Ok "abc123")) = Some falsy_handle ∧
  ∃ body,
    health (scripted_database (Some falsy_handle) (Ok "abc123")) empty_world
      = (Ok body, empty_world) ∧
    body !! "status" = Some (VStr "ok") ∧
    body !! "database" = Some (VStr "unavailable").
Proof.
  split; [reflexivity|]. split; [reflexivity|]. split; [reflexivity|].
  exists (health_body false). repeat split.
Qed.

(** ** Metrics *)

Section Metrics.

Context {St : Type}.
Implicit Types (m : database_module St) (w : world St).

(** The handler by cases: the count is requested only from a handle whose
    truth value is [True]; every failure leaves the baseline. *)
Lemma get_metrics_run m w :
  get_metrics m w =
  match bool_db (db m), db m with
  | Ok true, Some h =>
      match h_count_documents h "demorequest" (adapter w) with
      | (Ok demo_count, s') =>
          (Ok (metrics_body (base_metrics ++ [live_metric demo_count])), after_count w s')
      | (Raise _, s') => (Ok (metrics_body base_metrics), after_count w s')
      end
  | _, _ => (Ok (metrics_body base_metrics), w)
  end.
Proof.
  unfold get_metrics, with_local, try_except, bind, lift_result, ret.
  destruct (bool_db (db m)) as [[]|e]; [|reflexivity..].
  destruct (db m) as [h|]; [|reflexivity].
  unfold lift, call_adapter, append, update_local, get_local.
  destruct (h_count_documents h _ _) as [[n|e] s']; reflexivity.
Qed.

(** The handler never raises, and what it returns starts with the four
    baseline entries in their order, followed by at most the live count. *)
Lemma get_metrics_baseline m w :
  ∃ extra w',
    get_metrics m w = (Ok (metrics_body (base_metrics ++ extra)), w') ∧
    length base_metrics = 4%nat ∧
    (extra = [] ∨ ∃ demo_count, extra = [live_metric demo_count]).
Proof.
  rewrite get_metrics_run.
  destruct (bool_db (db m)) as [[]|e]; [|by exists [], w; auto..].
  destruct (db m) as [h|]; [|by exists [], w; auto].
  destruct (h_count_documents h _ _) as [[n|e] s'].
  - exists [live_metric n], (after_count w s'). eauto.
  - exists [], (after_count w s'). auto.
Qed.

(** X4: with a handle that is true in a boolean context and a count that
    succeeds, five entries are returned and the live count is the last. *)
Lemma get_metrics_live_count m h w demo_count s' :
  db m = Some h → h_bool h = Ok true →
  h_count_documents h "demorequest" (adapter w) = (Ok demo_count, s') →
  get_metrics m w
    = (Ok (metrics_body (base_metrics ++ [live_metric demo_count])), after_count w s') ∧
  length (base_metrics ++ [live_metric demo_count]) = 5%nat ∧
  last (base_metrics ++ [live_metric demo_count]) = Some (live_metric demo_count).
Proof.
  intros Hdb Hb Hcount. rewrite get_metrics_run, Hdb. simpl. rewrite Hb, Hcount.
  repeat split.
Qed.

(** X5: when the count raises, the four baseline entries are returned and the
    handler does not raise. *)
Lemma get_metrics_count_fails m h w e s' :
  db m = Some h →
  h_count_documents h "demorequest" (adapter w) = (Raise e, s') →
  ∃ w', get_metrics m w = (Ok (metrics_body base_metrics), w').
Proof.
  intros Hdb Hcount. rewrite get_metrics_run, Hdb. simpl.
  destruct (h_bool h) as [[]|]; rewrite ?Hcount; eauto.
Qed.

End Metrics.

(** C3: the live count is requested under [if db:], not under
    [db is not None].  With a handle whose truth value testing raises and
    whose count would succeed, the outer handler swallows the error: four
    entries are returned and the count is never requested. *)
Theorem get_metrics_tests_truth_value :
  db (scripted_database (Some untestable_handle) (Ok "abc123")) = Some untestable_handle ∧
  h_count_documents untestable_handle "demorequest" [] = (Ok 7, []) ∧
  get_metrics (scripted_database (Some untestable_handle) (Ok "abc123")) empty_world
    = (Ok (metrics_body base_metrics), empty_world) ∧
  length base_metrics = 4%nat ∧
  get_metrics (scripted_database (Some working_handle) (Ok "abc123")) empty_world
    = (Ok (metrics_body (base_metrics ++ [live_metric 7])), after_count empty_world []).
Proof. repeat split. Qed.

(** ** Diagnostics *)

Section Diagnostics.

Context {St : Type}.
Implicit Types (m : database_module St) (w : world St) (environ : gmap string string).

(** The handler by cases.  Every path ends in a report; the listing is
    requested only when there is a handle and reading its name did not
    raise. *)
Lemma test_database_run m environ w :
  test_database m environ w =
  match db m with
  | None => (Ok (report environ "⚠️  Available but not initialized" "Not Connected" []), w)
  | Some h =>
      match h_name h with
      | Raise e =>
          (Ok (report environ ("❌ Error: " +:+ str_prefix 50 (str_exn e))
                      "Not Connected" []), w)
      | Ok _ =>
          match h_list_collection_names h (adapter w) with
          | (Ok names, s') =>
              (Ok (report environ "✅ Connected & Working" "Connected" (take 10 names)),
               after_listing w s')
          | (Raise e, s') =>
              (Ok (report environ
                     ("⚠️  Connected but Error: " +:+ str_prefix 50 (str_exn e))
                     "Connected" []),
               after_listing w s')
          end
      end
  end.
Proof.
  unfold test_database, with_local, try_except, bind, setitem, update_local,
    get_local, lift_result, lift, call_adapter, report.
  destruct (db m) as [h|]; [|reflexivity].
  destruct (h_name h) as [attr|e]; [|reflexivity].
  destruct (h_list_collection_names h _) as [[names|e] s']; reflexivity.
Qed.

(** Every path ends in a report with at most ten collection names. *)
Lemma test_database_reports m environ w :
  ∃ database connection_status collections w',
    test_database m environ w
      = (Ok (report environ database connection_status collections), w') ∧
    (length collections ≤ 10)%nat.
Proof.
  rewrite test_database_run.
  destruct (db m) as [h|]; [|by eexists _, _, [], _; split; [|simpl; lia]].
  destruct (h_name h) as [attr|e]; [|by eexists _, _, [], _; split; [|simpl; lia]].
  destruct (h_list_collection_names h _) as [[names|e] s'].
  - eexists _, _, (take 10 names), _. split; [reflexivity|].
    rewrite length_take. lia.
  - eexists _, _, [], _. split; [reflexivity|simpl; lia].
Qed.

(** A flag is "Set" exactly for a variable that has a non-empty value. *)
Lemma env_flag_set environ k :
  env_flag environ k = VStr "✅ Set" ↔ ∃ v, environ !! k = Some v ∧ v ≠ "".
Proof.
  unfold env_flag, getenv.
  destruct (environ !! k) as [v|]; simpl.
  - destruct (String.eqb_spec v "") as [->|Hne]; simpl.
    + split; [discriminate|]. intros (v & [= <-] & Hv). by destruct Hv.
    + split; [|reflexivity]. intros _. by exists v.
  - split; [discriminate|]. intros (v & [=] & _).
Qed.

Lemma env_flag_cases environ k :
  env_flag environ k = VStr "✅ Set" ∨ env_flag environ k = VStr "❌ Not Set".
Proof. unfold env_flag. destruct (truthy _); auto. Qed.

(** C7, as the code has it: in every report, for every state of the adapter,
    each of the two flags is "Set" exactly when the corresponding environment
    variable has a non-empty value, and "Not Set" otherwise. *)
Theorem test_database_env_flags m environ w :
  ∃ resp w',
    test_database m environ w = (Ok resp, w') ∧
    (resp !! "database_url" = Some (VStr "✅ Set")
       ↔ ∃ v, environ !! "DATABASE_URL" = Some v ∧ v ≠ "") ∧
    (resp !! "database_name" = Some (VStr "✅ Set")
       ↔ ∃ v, environ !! "DATABASE_NAME" = Some v ∧ v ≠ "") ∧
    (resp !! "database_url" = Some (VStr "✅ Set")
       ∨ resp !! "database_url" = Some (VStr "❌ Not Set")) ∧
    (resp !! "database_name" = Some (VStr "✅ Set")
       ∨ resp !! "database_name" = Some (VStr "❌ Not Set")).
Proof.
  destruct (test_database_reports m environ w) as (database & status & colls & w' & Hrun & _).
  eexists _, w'. split; [exact Hrun|].
  change (report environ database status colls !! "database_url")
    with (Some (env_flag environ "DATABASE_URL")).
  change (report environ database status colls !! "database_name")
    with (Some (env_flag environ "DATABASE_NAME")).
  repeat split.
  - intros [= H]. by apply env_flag_set.
  - intros H. f_equal. by apply env_flag_set.
  - intros [= H]. by apply env_flag_set.
  - intros H. f_equal. by apply env_flag_set.
  - destruct (env_flag_cases environ "DATABASE_URL") as [->| ->]; auto.
  - destruct (env_flag_cases environ "DATABASE_NAME") as [->| ->]; auto.
Qed.

(** C8, as the code has it: the handler never raises and is served with
    status 200 in every case; the backend flag and the two environment flags
    are always computed; a failure of the listing is reported in [database]
    and leaves the connection status "Connected"; an error raised while
    reading the handle's name is reported in [database] too, and then the
    listing is not requested; a listing that succeeds contributes its first
    ten names at most. *)
Theorem test_database_never_raises m environ w :
  ∃ resp w',
    test_database m environ w = (Ok resp, w') ∧
    serve (test_database m environ) w = (Ok (JSONResponse 200 (VDict resp)), w') ∧
    resp !! "backend" = Some (VStr "✅ Running") ∧
    resp !! "database_url" = Some (env_flag environ "DATABASE_URL") ∧
    resp !! "database_name" = Some (env_flag environ "DATABASE_NAME") ∧
    match db m with
    | None => w' = w
    | Some h =>
        match h_name h with
        | Raise e =>
            w' = w ∧
            resp !! "database"
              = Some (VStr ("❌ Error: " +:+ str_prefix 50 (str_exn e))) ∧
            resp !! "connection_status" = Some (VStr "Not Connected") ∧
            resp !! "collections" = Some (VList [])
        | Ok _ =>
            resp !! "connection_status" = Some (VStr "Connected") ∧
            match h_list_collection_names h (adapter w) with
            | (Ok names, s') =>
                w' = after_listing w s' ∧
                resp !! "database" = Some (VStr "✅ Connected & Working") ∧
                resp !! "collections" = Some (VList (VStr <$> take 10 names)) ∧
                (length (take 10 names) ≤ 10)%nat
            | (Raise e, s') =>
                w' = after_listing w s' ∧
                resp !! "database"
                  = Some (VStr ("⚠️  Connected but Error: "
                                +:+ str_prefix 50 (str_exn e))) ∧
                resp !! "collections" = Some (VList [])
            end
        end
    end.
Proof.
  unfold serve, try_except, bind, ret. rewrite test_database_run.
  destruct (db m) as [h|]; [|by eexists _, _; repeat split].
  destruct (h_name h) as [attr|e]; [|by eexists _, _; repeat split].
  destruct (h_list_collection_names h _) as [[names|e] s'].
  - eexists _, _. repeat split. rewrite length_take. lia.
  - eexists _, _. repeat split.
Qed.

(** C10: without a handle the report says "Available but not initialized"
    for the database, the connection status stays "Not Connected" and the
    list of collections stays empty. *)
Theorem test_database_without_handle m environ w :
  db m = None →
  ∃ resp,
    test_database m environ w = (Ok resp, w) ∧
    resp !! "database" = Some (VStr "⚠️  Available but not initialized") ∧
    resp !! "database" ≠ Some (VStr "❌ Not Available") ∧
    resp !! "connection_status" = Some (VStr "Not Connected") ∧
    resp !! "collections" = Some (VList []).
Proof.
  intros Hdb. rewrite test_database_run, Hdb.
  eexists. split; [reflexivity|]. repeat split. discriminate.
Qed.

End Diagnostics.

Lemma test_database_without_handle_witness :
  ∃ resp,
    test_database (fallback (St:=store)) ∅ empty_world = (Ok resp, empty_world) ∧
    resp !! "database" = Some (VStr "⚠️  Available but not initialized") ∧
    resp !! "database" ≠ Some (VStr "❌ Not Available") ∧
    resp !! "connection_status" = Some (VStr "Not Connected") ∧
    resp !! "collections" = Some (VList []).
Proof. exact (test_database_without_handle fallback ∅ empty_world eq_refl). Defined.

(** C7 as stated fails: a variable that is present with the empty string as
    its value is reported as "Not Set". *)
Lemma env_flag_empty_value :
  is_Some (({[ "DATABASE_URL" := "" ]} : gmap string string) !! "DATABASE_URL") ∧
  ∃ resp,
    test_database (fallback (St:=store)) {[ "DATABASE_URL" := "" ]} empty_world
      = (Ok resp, empty_world) ∧
    resp !! "database_url" = Some (VStr "❌ Not Set") ∧
    resp !! "database_url" ≠ Some (VStr "✅ Set").
Proof.
  split; [by eexists|].
  eexists. split; [reflexivity|]. split; [reflexivity|discriminate].
Qed.

(** C8 as stated fails: when reading the handle's name raises, the listing,
    which would succeed, is not requested, and the report keeps
    "Not Connected" and no collections. *)
Lemma test_database_name_error_skips_listing :
  h_list_collection_names nameless_handle [] = (Ok ["demorequest"], []) ∧
  ∃ resp,
    test_database (scripted_database (Some nameless_handle) (Ok "abc123")) ∅ empty_world
      = (Ok resp, empty_world) ∧
    calls empty_world = [] ∧
    resp !! "database" = Some (VStr "❌ Error: name lookup failed") ∧
    resp !! "connection_status" = Some (VStr "Not Connected") ∧
    resp !! "collections" = Some (VList []) ∧
    ∃ resp' w',
      test_database (scripted_database (Some working_handle) (Ok "abc123")) ∅ empty_world
        = (Ok resp', w') ∧
      calls w' = [ListCollectionNames] ∧
      resp' !! "collections" = Some (VList [VStr "demorequest"]).
Proof.
  split; [reflexivity|].
  eexists. split; [reflexivity|]. repeat split.
  eexists _, _. repeat split.
Qed.

(** ** Validation *)

Lemma split_at_sign_none s : has_char "@" s = false → split_at_sign s = None.
Proof.
  induction s as [|c s IH]; cbn [has_char split_at_sign]; [reflexivity|].
  rewrite (Ascii.eqb_sym "@" c). destruct (Ascii.eqb c "@"); cbn [orb]; [discriminate|].
  intros H. by rewrite IH.
Qed.

(** Each of the three malformations fails the syntax check. *)
Lemma malformed_email_invalid s : malformed_email s = true → valid_email s = false.
Proof.
  unfold malformed_email, valid_email. intros H.
  destruct (String.eqb s "") eqn:Hempty.
  { apply String.eqb_eq in Hempty. by subst s. }
  destruct (has_char "@" s) eqn:Hat; simpl in H.
  - destruct (split_at_sign s) as [[l d]|]; [|reflexivity].
    apply negb_true_iff in H. rewrite H.
    by rewrite andb_false_r.
  - by rewrite split_at_sign_none.
Qed.

(** A body whose e-mail fails the syntax check is rejected, and the rejection
    names the field. *)
Lemma validate_rejects_email body s :
  body !! "email" = Some (VStr s) → valid_email s = false →
  ∃ fields, validate body = inl fields ∧ "email" ∈ fields.
Proof.
  intros Hbody Hinvalid. unfold validate, validate_email. rewrite Hbody, Hinvalid.
  destruct (validate_optional body "name"), (validate_optional body "company"),
    (validate_optional body "message"); eexists; (split; [reflexivity|]);
    simpl; set_solver.
Qed.

(** C5: a body whose e-mail is the empty string, has no at-sign or has no dot
    in its domain is answered with the validation error naming [email]; the
    handler is not called: the store and the trace of adapter calls are what
    they were. *)
Theorem post_demo_requests_rejects_malformed {St} (m : database_module St)
    (body : pydict) (s : string) (w : world St) :
  body !! "email" = Some (VStr s) →
  malformed_email s = true →
  ∃ fields,
    validate body = inl fields ∧
    "email" ∈ fields ∧
    post_demo_requests m body w
      = (Ok (JSONResponse 422 (VDict {[ "detail" := VList (VStr <$> fields) ]})), w).
Proof.
  intros Hbody Hmal.
  destruct (validate_rejects_email body s Hbody (malformed_email_invalid s Hmal))
    as (fields & Hval & Hin).
  exists fields. repeat split; [exact Hval|exact Hin|].
  unfold post_demo_requests. by rewrite Hval.
Qed.

(** The scenario of the spec: "not-an-email" is rejected and the adapter,
    which would accept the write, is not called. *)
Lemma post_demo_requests_rejects_malformed_witness :
  ∃ fields,
    validate {[ "email" := VStr "not-an-email" ]} = inl fields ∧
    "email" ∈ fields ∧
    post_demo_requests (scripted_database (Some working_handle) (Ok "abc123"))
                       {[ "email" := VStr "not-an-email" ]} empty_world
      = (Ok (JSONResponse 422 (VDict {[ "detail" := VList (VStr <$> fields) ]})),
         empty_world).
Proof.
  exact (post_demo_requests_rejects_malformed
           (scripted_database (Some working_handle) (Ok "abc123"))
           {[ "email" := VStr "not-an-email" ]} "not-an-email" empty_world
           eq_refl eq_refl).
Defined.

(** The three malformations of the spec on examples, and a valid address. *)
Example malformed_examples :
  malformed_email "" = true ∧ malformed_email "not-an-email" = true ∧
  malformed_email "a@b" = true ∧ malformed_email "a@b.com" = false ∧
  valid_email "a@b.com" = true.
Proof. repeat split. Qed.

(** * Further properties of the handlers *)

(** ** Strings cut to a length *)




(** Characters outside ASCII count once, whatever the length of their
    encoding. *)
Example str_prefix_counts_characters :
  str_len "héllo ✅" = 7%nat ∧ str_prefix 3 "héllo ✅" = "hél" ∧
  str_prefix 7 "héllo ✅" = "héllo ✅" ∧ str_prefix 0 "héllo ✅" = "".
Proof. repeat split. Qed.

(** ** Health *)

Section HealthMore.

Context {St : Type}.
Implicit Types (m : database_module St) (w : world St).

(** X1: the health handler makes no call to the adapter and leaves the world
    as it was.  When it returns, the body has exactly the keys [status],
    [database] and [version], with [status] "ok" and [version] "1.0.0", and
    [database] is "available" or "unavailable" as [bool(db)] is [True] or
    [False]; it raises only what the truth value testing of [db] raises. *)
Theorem health_reads_only_truth_value m w :
  snd (health m w) = w ∧
  match fst (health m w) with
  | Ok body =>
      dom body = ({[ "status"; "database"; "version" ]} : gset string) ∧
      body !! "status" = Some (VStr "ok") ∧
      body !! "version" = Some (VStr "1.0.0") ∧
      ((body !! "database" = Some (VStr "available") ∧ bool_db (db m) = Ok true) ∨
       (body !! "database" = Some (VStr "unavailable") ∧ bool_db (db m) = Ok false))
  | Raise e => bool_db (db m) = Raise e
  end.
Proof.
  rewrite health_run.
  destruct (bool_db (db m)) as [b|e]; simpl; [|by split].
  split; [reflexivity|].
  split.
  { unfold health_body. rewrite !dom_insert_L, dom_singleton_L. set_solver. }
  do 2 (split; [reflexivity|]).
  destruct b; [left|right]; by split.
Qed.

(** X2: without a handle the two read-only handlers degrade without calling
    the adapter and without raising: health reports "unavailable" and the
    metrics are exactly the four baseline entries. *)
Theorem reporting_without_handle m w :
  db m = None →
  health m w = (Ok (health_body false), w) ∧
  health_body false !! "database" = Some (VStr "unavailable") ∧
  get_metrics m w = (Ok (metrics_body base_metrics), w) ∧
  length base_metrics = 4%nat.
Proof.
  intros Hdb. rewrite health_run, get_metrics_run, Hdb. by repeat split.
Qed.

End HealthMore.

Lemma reporting_without_handle_witness :
  health (import_database (St:=store) (Raise (Exception "No module named database")))
         empty_world
    = (Ok (health_body false), empty_world) ∧
  health_body false !! "database" = Some (VStr "unavailable") ∧
  get_metrics (import_database (St:=store) (Raise (Exception "No module named database")))
              empty_world
    = (Ok (metrics_body base_metrics), empty_world) ∧
  length base_metrics = 4%nat.
Proof.
  exact (reporting_without_handle
           (import_database (Raise (Exception "No module named database")))
           empty_world eq_refl).
Defined.

(** ** Metrics *)

Section MetricsMore.

Context {St : Type}.
Implicit Types (m : database_module St) (w : world St).

(** X3: the metrics handler never raises.  What it returns starts with the
    four baseline entries and has four or five entries; it makes no call to
    the adapter, or exactly one, a count on "demorequest", and never a
    write. *)
Theorem get_metrics_never_raises m w :
  ∃ entries w',
    get_metrics m w = (Ok (metrics_body entries), w') ∧
    take 4 entries = base_metrics ∧
    (length entries = 4 ∨ length entries = 5)%nat ∧
    (w' = w ∨ ∃ s', w' = after_count w s').
Proof.
  rewrite get_metrics_run.
  destruct (bool_db (db m)) as [[]|e];
    [|by exists base_metrics, w; repeat split; auto..].
  destruct (db m) as [h|]; [|by exists base_metrics, w; repeat split; auto].
  destruct (h_count_documents h _ _) as [[n|e] s'].
  - exists (base_metrics ++ [live_metric n]), (after_count w s').
    repeat split; eauto.
  - exists base_metrics, (after_count w s'). repeat split; eauto.
Qed.

Lemma metric_keys label value hint :
  ∃ d, metric label value hint = VDict d ∧
       dom d = ({[ "label"; "value"; "hint" ]} : gset string) ∧
       d !! "label" = Some (VStr label) ∧
       d !! "value" = Some value ∧
       d !! "hint" = Some (VStr hint).
Proof.
  eexists. split; [reflexivity|]. split; [|by repeat split].
  rewrite !dom_insert_L, dom_singleton_L. set_solver.
Qed.

(** X6: every entry the metrics handler returns is a dictionary with exactly
    the keys [label], [value] and [hint], the label and the hint being
    strings and the value a number or a string. *)
Theorem get_metrics_entry_keys m w :
  ∃ entries w',
    get_metrics m w = (Ok (metrics_body entries), w') ∧
    Forall (λ v, ∃ d label hint,
              v = VDict d ∧
              dom d = ({[ "label"; "value"; "hint" ]} : gset string) ∧
              d !! "label" = Some (VStr label) ∧
              d !! "hint" = Some (VStr hint) ∧
              ((∃ n, d !! "value" = Some (VInt n)) ∨ (∃ s, d !! "value" = Some (VStr s))))
           entries.
Proof.
  assert (Hentry : ∀ label value hint,
             (∃ n, value = VInt n) ∨ (∃ s, value = VStr s) →
             ∃ d label' hint',
               metric label value hint = VDict d ∧
               dom d = ({[ "label"; "value"; "hint" ]} : gset string) ∧
               d !! "label" = Some (VStr label') ∧
               d !! "hint" = Some (VStr hint') ∧
               ((∃ n, d !! "value" = Some (VInt n)) ∨ (∃ s, d !! "value" = Some (VStr s)))).
  { intros label value hint Hvalue.
    destruct (metric_keys label value hint) as (d & -> & Hdom & Hl & Hv & Hh).
    exists d, label, hint. repeat split; try done.
    destruct Hvalue as [[n ->]|[s ->]]; eauto. }
  assert (Hbase : Forall (λ v, ∃ d label hint,
              v = VDict d ∧
              dom d = ({[ "label"; "value"; "hint" ]} : gset string) ∧
              d !! "label" = Some (VStr label) ∧
              d !! "hint" = Some (VStr hint) ∧
              ((∃ n, d !! "value" = Some (VInt n)) ∨ (∃ s, d !! "value" = Some (VStr s))))
           base_metrics).
  { unfold base_metrics. repeat apply Forall_cons_2; [..|apply Forall_nil_2];
      apply Hentry; eauto. }
  rewrite get_metrics_run.
  destruct (bool_db (db m)) as [[]|e]; [|by eexists _, _; split..].
  destruct (db m) as [h|]; [|by eexists _, _; split].
  destruct (h_count_documents h _ _) as [[n|e] s']; eexists _, _; (split; [reflexivity|]).
  - apply Forall_app_2; [exact Hbase|].
    apply Forall_cons_2; [|apply Forall_nil_2]. apply Hentry; eauto.
  - exact Hbase.
Qed.

End MetricsMore.

Lemma get_metrics_live_count_witness :
  get_metrics (scripted_database (Some working_handle) (Ok "abc123")) empty_world
    = (Ok (metrics_body (base_metrics ++ [live_metric 7])), after_count empty_world []) ∧
  length (base_metrics ++ [live_metric 7]) = 5%nat ∧
  last (base_metrics ++ [live_metric 7]) = Some (live_metric 7).
Proof.
  exact (get_metrics_live_count
           (scripted_database (Some working_handle) (Ok "abc123")) working_handle
           empty_world 7 [] eq_refl eq_refl eq_refl).
Defined.

Lemma get_metrics_count_fails_witness :
  ∃ w',
    get_metrics
      (scripted_database
         (Some (scripted_handle (Ok true) (Ok None)
                                (Raise (Exception "connection refused")) (Ok [])))
         (Ok "abc123"))
      empty_world
    = (Ok (metrics_body base_metrics), w').
Proof.
  exact (get_metrics_count_fails
           (scripted_database
              (Some (scripted_handle (Ok true) (Ok None)
                                     (Raise (Exception "connection refused")) (Ok [])))
              (Ok "abc123"))
           (scripted_handle (Ok true) (Ok None)
                            (Raise (Exception "connection refused")) (Ok []))
           empty_world (Exception "connection refused") [] eq_refl eq_refl).
Defined.

(** ** Diagnostics *)

Section DiagnosticsMore.

Context {St : Type}.
Implicit Types (m : database_module St) (w : world St) (environ : gmap string string).

Lemma report_dom environ database connection_status collections :
  dom (report environ database connection_status collections)
    = ({[ "backend"; "database"; "database_url"; "database_name";
          "connection_status"; "collections" ]} : gset string).
Proof. unfold report. rewrite !dom_insert_L, dom_singleton_L. set_solver. Qed.

(** X7: on every path the report has exactly the six keys it starts with;
    the assignments of the handler replace values and add no key. *)
Theorem test_database_keys m environ w :
  ∃ resp w',
    test_database m environ w = (Ok resp, w') ∧
    dom resp = ({[ "backend"; "database"; "database_url"; "database_name";
                   "connection_status"; "collections" ]} : gset string).
Proof.
  destruct (test_database_reports m environ w) as (database & status & colls & w' & Hrun & _).
  eexists _, w'. split; [exact Hrun|apply report_dom].
Qed.


(** X9: when the listing succeeds, the reported collections are the first ten
    names of the listing in their order; a listing of at most ten names is
    reported whole. *)
Theorem test_database_lists_first_ten m h attr environ w names s' :
  db m = Some h → h_name h = Ok attr →
  h_list_collection_names h (adapter w) = (Ok names, s') →
  ∃ resp shown,
    test_database m environ w = (Ok resp, after_listing w s') ∧
    resp !! "collections" = Some (VList (VStr <$> shown)) ∧
    shown `prefix_of` names ∧
    length shown = Nat.min 10 (length names) ∧
    ((length names ≤ 10)%nat → shown = names).
Proof.
  intros Hdb Hname Hlist. rewrite test_database_run, Hdb, Hname, Hlist.
  eexists _, (take 10 names). split; [reflexivity|].
  split; [reflexivity|].
  split; [apply prefix_take|].
  split; [apply length_take|apply take_ge].
Qed.

(** X10: the name read from the handle never reaches the report: the key
    [database_name] is assigned again from the environment afterwards.  Two
    handles whose listing behaves alike and whose name can be read give the
    same result, whatever the names are. *)
Theorem test_database_ignores_name m1 m2 h1 h2 attr1 attr2 environ w :
  db m1 = Some h1 → db m2 = Some h2 →
  h_name h1 = Ok attr1 → h_name h2 = Ok attr2 →
  h_list_collection_names h1 (adapter w) = h_list_collection_names h2 (adapter w) →
  test_database m1 environ w = test_database m2 environ w.
Proof.
  intros Hdb1 Hdb2 Hname1 Hname2 Hlist.
  rewrite !test_database_run, Hdb1, Hdb2, Hname1, Hname2, Hlist. reflexivity.
Qed.

End DiagnosticsMore.


(** The same listing error, cut after its fiftieth character. *)
Example test_database_truncates_by_character :
  str_prefix 50 "délai dépassé: le serveur localhost:27017 ne répond pas après 30 secondes"
    = "délai dépassé: le serveur localhost:27017 ne répon" ∧
  str_len "délai dépassé: le serveur localhost:27017 ne répon" = 50%nat.
Proof. split; reflexivity. Qed.

Lemma test_database_lists_first_ten_witness :
  ∃ resp shown,
    test_database
      (scripted_database
         (Some (scripted_handle (Ok true) (Ok None) (Ok 7)
                  (Ok ["a"; "b"; "c"; "d"; "e"; "f"; "g"; "h"; "i"; "j"; "k"; "l"])))
         (Ok "abc123"))
      ∅ empty_world
    = (Ok resp, after_listing empty_world []) ∧
    resp !! "collections" = Some (VList (VStr <$> shown)) ∧
    shown `prefix_of` ["a"; "b"; "c"; "d"; "e"; "f"; "g"; "h"; "i"; "j"; "k"; "l"] ∧
    length shown
      = Nat.min 10 (length ["a"; "b"; "c"; "d"; "e"; "f"; "g"; "h"; "i"; "j"; "k"; "l"]) ∧
    ((length ["a"; "b"; "c"; "d"; "e"; "f"; "g"; "h"; "i"; "j"; "k"; "l"] ≤ 10)%nat →
     shown = ["a"; "b"; "c"; "d"; "e"; "f"; "g"; "h"; "i"; "j"; "k"; "l"]).
Proof.
  exact (test_database_lists_first_ten
           (scripted_database
              (Some (scripted_handle (Ok true) (Ok None) (Ok 7)
                       (Ok ["a"; "b"; "c"; "d"; "e"; "f"; "g"; "h"; "i"; "j"; "k"; "l"])))
              (Ok "abc123"))
           _ None ∅ empty_world _ [] eq_refl eq_refl eq_refl).
Defined.

Lemma test_database_ignores_name_witness :
  test_database (scripted_database (Some working_handle) (Ok "abc123")) ∅ empty_world
  = test_database
      (scripted_database
         (Some (scripted_handle (Ok true) (Ok None) (Ok 7) (Ok ["demorequest"])))
         (Ok "abc123"))
      ∅ empty_world.
Proof.
  exact (test_database_ignores_name
           (scripted_database (Some working_handle) (Ok "abc123"))
           (scripted_database
              (Some (scripted_handle (Ok true) (Ok None) (Ok 7) (Ok ["demorequest"])))
              (Ok "abc123"))
           _ _ (Some (VStr "demo")) None ∅ empty_world
           eq_refl eq_refl eq_refl eq_refl eq_refl).
Defined.

(** ** Demo requests *)

Section DemoRequestsMore.

Context {St : Type}.
Implicit Types (m : database_module St) (w : world St) (payload : DemoRequestIn).

Lemma model_dump_dom payload :
  dom (model_dump payload)
    = ({[ "email"; "name"; "company"; "message" ]} : gset string).
Proof. unfold model_dump. rewrite !dom_insert_L, dom_singleton_L. set_solver. Qed.

(** X11: whatever the adapter does, the handler makes exactly one call to it,
    a create on "demorequest" with the four fields of the payload.  What it
    returns is the stored document without [message] and with the [id] the
    call returned; the only exception it raises is an [HTTPException] with
    status code 500. *)
Theorem create_demo_request_one_call m payload w :
  dom (model_dump payload)
    = ({[ "email"; "name"; "company"; "message" ]} : gset string) ∧
  calls (snd (create_demo_request m payload w))
    = calls w ++ [CreateDocument "demorequest" (model_dump payload)] ∧
  match fst (create_demo_request m payload w) with
  | Ok out =>
      ∃ new_id,
        fst (create_document m "demorequest" (model_dump payload) (adapter w))
          = Ok new_id ∧
        out = <["id" := VStr new_id]> (delete "message" (model_dump payload))
  | Raise e => ∃ detail, e = HTTPException 500 detail
  end.
Proof.
  split; [apply model_dump_dom|].
  rewrite create_demo_request_run.
  destruct (create_document m _ _ _) as [[new_id|e] s']; simpl.
  - split; [reflexivity|]. exists new_id. split; reflexivity.
  - split; [reflexivity|]. eauto.
Qed.

(** X12: the handler does no check for duplicates: the same payload submitted
    twice makes two create calls with the same document, whatever the first
    one gave. *)
Theorem create_demo_request_twice m payload w :
  calls (snd (create_demo_request m payload (snd (create_demo_request m payload w))))
    = calls w ++ [CreateDocument "demorequest" (model_dump payload);
                  CreateDocument "demorequest" (model_dump payload)].
Proof.
  rewrite (create_demo_request_run m payload w).
  destruct (create_document m _ _ (adapter w)) as [[new_id|e] s']; simpl;
    rewrite create_demo_request_run; simpl;
    destruct (create_document m _ _ s') as [[new_id'|e'] s'']; simpl;
    by rewrite <- app_assoc.
Qed.

End DemoRequestsMore.
